(** * fib.c: the restarting Fibonacci printer

    A shallow embedding of [main] of [src/fib.c] as a labelled transition
    system whose program points are the executable lines of the source, and
    the properties of its runs.

<<
     3  int main(void) {
     4      int x, y, z;
     8      while (1) {
     9          x = 0;
    10          y = 1;
    11          do {
    12              printf("%d\n", x);
    13              z = x + y;
    14              x = y;
    15              y = z;
    16          } while (x < 255);
    17      }
    19  }
>>
*)

From Stdlib Require Import ZArith List Lia Bool String Ascii DecimalString.
Import ListNotations.

Local Open Scope Z_scope.

Module Fib.

(** ** Machine integers

    [int] is taken as a 32-bit two's complement integer.  The sum of line 13
    is computed in [Z] and wrapped back into the range of the type, so that
    whether it ever leaves the range is a property to be proved, not built
    into the model. *)

Definition INT_MIN : Z := - 2 ^ 31.
Definition INT_MAX : Z := 2 ^ 31 - 1.

Definition in_int (v : Z) : Prop := INT_MIN <= v <= INT_MAX.

Definition in_intb (v : Z) : bool := (INT_MIN <=? v) && (v <=? INT_MAX).

Definition int_wrap (v : Z) : Z := (v + 2 ^ 31) mod 2 ^ 32 - 2 ^ 31.

Definition add_int (a b : Z) : Z := int_wrap (a + b).

(** ** Program points of [main] *)

Inductive label : Type :=
| L_while   (* line  8: while (1)            *)
| L_x0      (* line  9: x = 0;               *)
| L_y1      (* line 10: y = 1;               *)
| L_print   (* line 12: printf("%d\n", x);   *)
| L_z       (* line 13: z = x + y;           *)
| L_x       (* line 14: x = y;               *)
| L_y       (* line 15: y = z;               *)
| L_cond    (* line 16: } while (x < 255);   *)
| L_end.    (* line 19: after the outer loop *)

Definition label_eqb (a b : label) : bool :=
  match a, b with
  | L_while, L_while | L_x0, L_x0 | L_y1, L_y1 | L_print, L_print
  | L_z, L_z | L_x, L_x | L_y, L_y | L_cond, L_cond | L_end, L_end => true
  | _, _ => false
  end.

(** The three locals of [main] and the program point. *)

Record state : Type := mkState { pc : label; x : Z; y : Z; z : Z }.

Definition goto (l : label) (s : state) : state := mkState l (x s) (y s) (z s).

(** A trace is the list of the integers handed to [printf("%d\n", _)],
    oldest first. *)

Definition trace : Type := list Z.

(** ** One statement of [main]

    [step s] is the state after the statement at [pc s] together with what
    the statement printed; [None] when control is past the outer loop and
    [main] returns. *)

Definition step (s : state) : option (state * trace) :=
  match pc s with
  | L_while =>
      if negb (1 =? 0) then Some (goto L_x0 s, []) else Some (goto L_end s, [])
  | L_x0    => Some (mkState L_y1 0 (y s) (z s), [])
  | L_y1    => Some (mkState L_print (x s) 1 (z s), [])
  | L_print => Some (goto L_z s, [x s])
  | L_z     => Some (mkState L_x (x s) (y s) (add_int (x s) (y s)), [])
  | L_x     => Some (mkState L_y (y s) (y s) (z s), [])
  | L_y     => Some (mkState L_cond (x s) (z s) (z s), [])
  | L_cond  =>
      if x s <? 255 then Some (goto L_print s, [])
      else Some (goto L_while s, [])
  | L_end   => None
  end.

(** The sum of line 13 leaves the range of [int] in state [s]. *)

Definition overflows (s : state) : bool :=
  match pc s with
  | L_z => negb (in_intb (x s + y s))
  | _ => false
  end.

(** ** Runs *)

Fixpoint run (n : nat) (s : state) : option (state * trace) :=
  match n with
  | O => Some (s, [])
  | S k =>
      match step s with
      | None => None
      | Some (s1, t1) =>
          match run k s1 with
          | None => None
          | Some (s2, t2) => Some (s2, t1 ++ t2)
          end
      end
  end.

(** [main] is entered at the outer loop with its locals holding whatever
    they hold: [x0], [y0], [z0] stand for the indeterminate contents. *)

Definition entry (x0 y0 z0 : Z) : state := mkState L_while x0 y0 z0.

Definition main (n : nat) (x0 y0 z0 : Z) : option (state * trace) :=
  run n (entry x0 y0 z0).

(** One cycle of the outer loop: run from [s] until control is next at the
    head of the outer loop, collecting what is printed on the way. *)

Fixpoint until_restart (fuel : nat) (s : state) : option (state * trace) :=
  match fuel with
  | O => None
  | S f =>
      match step s with
      | None => None
      | Some (s1, t1) =>
          if label_eqb (pc s1) L_while then Some (s1, t1)
          else
            match until_restart f s1 with
            | None => None
            | Some (s2, t2) => Some (s2, t1 ++ t2)
            end
      end
  end.

(** ** Text written to standard output *)

Definition nl : string := String (ascii_of_nat 10) EmptyString.

(** [printf("%d\n", v)]: the decimal digits of [v], a minus sign first when
    it is negative, then a newline. *)

Definition printf_d_nl (v : Z) : string :=
  (NilZero.string_of_int (Z.to_int v) ++ nl)%string.

Fixpoint stdout_text (t : trace) : string :=
  match t with
  | [] => EmptyString
  | v :: r => (printf_d_nl v ++ stdout_text r)%string
  end.

(** The lines of that text, without their newlines. *)

Definition output_lines (t : trace) : list string :=
  map (fun v => NilZero.string_of_int (Z.to_int v)) t.

(** The Fibonacci numbers below 255. *)

Definition fib_below_255 : list Z :=
  [0; 1; 1; 2; 3; 5; 8; 13; 21; 34; 55; 89; 144; 233].

(** The list the specification gives for one cycle. *)

Definition spec_cycle : list Z :=
  [0; 1; 1; 2; 3; 5; 8; 13; 21; 34; 55; 89; 144; 233; 377].

(** ** What holds at each program point

    [loop_inv] relates the locals at every program point once control is
    inside [main]; it needs nothing of the initial contents of the locals.
    Inside the inner loop [x] and [y] are neighbours of a Fibonacci-like
    sequence ([x <= y <= 2x+1]) and the value about to be printed is below
    the bound of line 16. *)

Definition loop_inv (s : state) : Prop :=
  match pc s with
  | L_while | L_x0 => True
  | L_y1 => x s = 0
  | L_print | L_z => 0 <= x s <= y s /\ y s <= 2 * x s + 1 /\ x s < 255
  | L_x => 0 <= x s <= y s /\ y s <= 2 * x s + 1 /\ x s < 255
           /\ z s = x s + y s
  | L_y => y s = x s /\ 0 <= z s - x s <= x s /\ x s <= 2 * (z s - x s) + 1
           /\ z s - x s < 255
  | L_cond => z s = y s /\ 0 <= y s - x s <= x s /\ x s <= 2 * (y s - x s) + 1
              /\ y s - x s < 255
  | L_end => False
  end.

(** The three locals hold values of type [int]. *)

Definition ranged (s : state) : Prop :=
  in_int (x s) /\ in_int (y s) /\ in_int (z s).

(** The program points of the inner loop, lines 12 to 16. *)

Definition in_inner (l : label) : bool :=
  match l with
  | L_print | L_z | L_x | L_y | L_cond => true
  | _ => false
  end.

(** Control is inside the inner loop, and line 13 is within range, after
    [k] statements of the inner loop entered with [x = 0], [y = 1]. *)

Definition inner_point_ok (z0 : Z) (k : nat) : bool :=
  match run k (mkState L_print 0 1 z0) with
  | Some (sk, _) => in_inner (pc sk) && negb (overflows sk)
  | None => false
  end.

(** ** Reference notions for the further properties *)

(** The Fibonacci sequence: 0, 1, and then each term the sum of the two
    before it. *)

Fixpoint fib (n : nat) : Z :=
  match n with
  | O => 0
  | S m =>
      match m with
      | O => 1
      | S k => fib k + fib m
      end
  end.

(** The state after the first five statements of [main] (lines 8, 9, 10, 12
    and 13 of the first cycle): every local has been assigned. *)

Definition after_reset : state := mkState L_x 0 1 1.

(** [P] holds at each of the 73 states that follow [after_reset]. *)

Definition holds_on_cycle (P : state -> bool) : bool :=
  forallb (fun m => match run m after_reset with
                    | Some (s, _) => P s
                    | None => false
                    end)
          (seq 0 73).

Definition within_610 (s : state) : bool :=
  forallb (fun v => (0 <=? v) && (v <=? 610)) [x s; y s; z s].

Definition fib_pair (s : state) : bool :=
  existsb (fun k => (x s =? fib k) && (y s =? fib (S k))) (seq 0 14).

Definition fib_pair_at_print (s : state) : bool :=
  if label_eqb (pc s) L_print then fib_pair s else true.

(** A decimal digit or the newline character. *)

Definition digit_or_nl (c : ascii) : bool :=
  let n := nat_of_ascii c in
  ((48 <=? n) && (n <=? 57) || (n =? 10))%nat.

(** * Properties *)

(** ** Arithmetic *)

Lemma in_intb_spec (v : Z) : in_intb v = true <-> in_int v.
Proof.
  unfold in_intb, in_int.
  rewrite andb_true_iff, !Z.leb_le. tauto.
Qed.

Lemma int_wrap_id (v : Z) : in_int v -> int_wrap v = v.
Proof.
  unfold in_int, INT_MIN, INT_MAX, int_wrap.
  change (2 ^ 31) with 2147483648. change (2 ^ 32) with 4294967296.
  intros H. rewrite Z.mod_small; lia.
Qed.

Lemma small_in_int (v : Z) : -1024 <= v <= 1024 -> in_int v.
Proof.
  unfold in_int, INT_MIN, INT_MAX. change (2 ^ 31) with 2147483648. lia.
Qed.

(** ** Runs compose *)

Lemma run_add (a b : nat) (s : state) :
  run (a + b) s =
  match run a s with
  | None => None
  | Some (s1, t1) =>
      match run b s1 with
      | None => None
      | Some (s2, t2) => Some (s2, t1 ++ t2)
      end
  end.
Proof.
  revert s. induction a as [|a IH]; intros s; simpl.
  - destruct (run b s) as [[s2 t2]|]; reflexivity.
  - destruct (step s) as [[s1 t1]|]; [|reflexivity].
    rewrite IH. destruct (run a s1) as [[s2 t2]|]; [|reflexivity].
    destruct (run b s2) as [[s3 t3]|]; [|reflexivity].
    now rewrite app_assoc.
Qed.

Lemma run_split (a b : nat) (s s2 : state) (t : trace) :
  run (a + b) s = Some (s2, t) ->
  exists s1 t1 t2,
    run a s = Some (s1, t1) /\ run b s1 = Some (s2, t2) /\ t = t1 ++ t2.
Proof.
  rewrite run_add.
  destruct (run a s) as [[s1 t1]|]; [|discriminate].
  destruct (run b s1) as [[s3 t3]|] eqn:E; [|discriminate].
  intros H. injection H as <- <-. now exists s1, t1, t3.
Qed.

Lemma run_one (s : state) : run 1 s = step s.
Proof.
  simpl. destruct (step s) as [[s1 t1]|]; [|reflexivity].
  now rewrite app_nil_r.
Qed.

Lemma run_last (n : nat) (s s2 : state) (t : trace) :
  run (S n) s = Some (s2, t) ->
  exists s1 t1 t2,
    run n s = Some (s1, t1) /\ step s1 = Some (s2, t2) /\ t = t1 ++ t2.
Proof.
  replace (S n) with (n + 1)%nat by lia.
  intros H. apply run_split in H.
  destruct H as (s1 & t1 & t2 & H1 & H2 & E).
  rewrite run_one in H2. now exists s1, t1, t2.
Qed.

(** ** The outer loop has no way out *)

Lemma step_progress (s : state) :
  pc s <> L_end -> exists s1 t1, step s = Some (s1, t1) /\ pc s1 <> L_end.
Proof.
  destruct s as [[] a b c]; unfold step; simpl; intros H;
    try (now eexists _, _; split; [reflexivity|discriminate]).
  - destruct (a <? 255); eexists _, _; (split; [reflexivity|discriminate]).
  - now elim H.
Qed.

Lemma run_progress (n : nat) (s : state) :
  pc s <> L_end -> exists s1 t1, run n s = Some (s1, t1) /\ pc s1 <> L_end.
Proof.
  revert s. induction n as [|n IH]; intros s H; simpl.
  - now exists s, [].
  - destruct (step_progress s H) as (s1 & t1 & -> & H1).
    destruct (IH s1 H1) as (s2 & t2 & -> & H2).
    now eexists _, _.
Qed.

(** ** The invariant is kept by every statement *)

Ltac at_each_line s :=
  destruct s as [[] a b c];
  unfold loop_inv, ranged, step, overflows, goto;
  cbn -[Z.mul Z.add Z.sub Z.ltb Z.leb Z.lt Z.le in_intb in_int add_int].

Ltac next_state H :=
  injection H as <- <-;
  cbn -[Z.mul Z.add Z.sub Z.ltb Z.leb Z.lt Z.le in_intb in_int add_int].

Lemma step_loop_inv (s s1 : state) (t1 : trace) :
  loop_inv s -> step s = Some (s1, t1) ->
  loop_inv s1 /\ Forall (fun v => 0 <= v < 255) t1 /\ overflows s = false.
Proof.
  at_each_line s; intros I H; try discriminate.
  - (* line 8 *) next_state H. auto.
  - (* line 9 *) next_state H. auto.
  - (* line 10 *) next_state H. repeat split; auto; lia.
  - (* line 12 *) next_state H. repeat split; try lia.
    constructor; [lia|constructor].
  - (* line 13 *) next_state H.
    assert (R : in_int (a + b)) by (apply small_in_int; lia).
    unfold add_int. rewrite (int_wrap_id _ R).
    apply in_intb_spec in R. rewrite R. repeat split; auto; lia.
  - (* line 14 *) next_state H. repeat split; auto; lia.
  - (* line 15 *) next_state H. repeat split; auto; lia.
  - (* line 16 *)
    destruct (Z.ltb_spec a 255); next_state H; repeat split; auto; lia.
Qed.

Lemma loop_inv_no_overflow (s : state) : loop_inv s -> overflows s = false.
Proof.
  at_each_line s; intros I; try reflexivity.
  assert (R : in_int (a + b)) by (apply small_in_int; lia).
  apply in_intb_spec in R. now rewrite R.
Qed.

Lemma run_loop_inv (n : nat) (s s1 : state) (t1 : trace) :
  loop_inv s -> run n s = Some (s1, t1) ->
  loop_inv s1 /\ Forall (fun v => 0 <= v < 255) t1.
Proof.
  revert s1 t1. induction n as [|n IH]; intros s1 t1 I H.
  - injection H as <- <-. auto.
  - apply run_last in H. destruct H as (s2 & t2 & t3 & H2 & H3 & ->).
    destruct (IH _ _ I H2) as (I2 & F2).
    destruct (step_loop_inv _ _ _ I2 H3) as (I3 & F3 & _).
    split; [exact I3|]. apply Forall_app. now split.
Qed.

Lemma entry_loop_inv (x0 y0 z0 : Z) : loop_inv (entry x0 y0 z0).
Proof. exact I. Qed.

Lemma step_ranged (s s1 : state) (t1 : trace) :
  loop_inv s -> ranged s -> step s = Some (s1, t1) -> ranged s1.
Proof.
  at_each_line s; intros I (Ra & Rb & Rc) H; try discriminate.
  - next_state H. auto.
  - next_state H. refine (conj _ (conj _ _)); auto; apply small_in_int; lia.
  - next_state H. refine (conj _ (conj _ _)); auto; apply small_in_int; lia.
  - next_state H. auto.
  - next_state H.
    assert (R : in_int (a + b)) by (apply small_in_int; lia).
    unfold add_int. rewrite (int_wrap_id _ R). auto.
  - next_state H. auto.
  - next_state H. auto.
  - destruct (a <? 255); next_state H; auto.
Qed.

Lemma run_ranged (n : nat) (s s1 : state) (t1 : trace) :
  loop_inv s -> ranged s -> run n s = Some (s1, t1) -> ranged s1.
Proof.
  revert s1 t1. induction n as [|n IH]; intros s1 t1 I R H.
  - now injection H as <- <-.
  - apply run_last in H. destruct H as (s2 & t2 & t3 & H2 & H3 & ->).
    apply (step_ranged s2 s1 t3); auto.
    + now apply (run_loop_inv n s s2 t2).
    + now apply (IH s2 t2).
Qed.

(** ** Whole cycles, by evaluation

    The statements of lines 8 to 10 overwrite [x] and [y] before they are
    read and [z] is written on line 13 before line 15 reads it, so a cycle
    evaluates to the same result whatever the locals held before. *)

Lemma cycle_from_while (x0 y0 z0 : Z) :
  until_restart 73 (mkState L_while x0 y0 z0)
  = Some (mkState L_while 377 610 610, fib_below_255).
Proof. vm_compute. reflexivity. Qed.

Lemma inner_from_0_1 (z0 : Z) :
  run (5 * 14) (mkState L_print 0 1 z0)
  = Some (mkState L_while 377 610 610, fib_below_255).
Proof. vm_compute. reflexivity. Qed.

Lemma inner_points_ok (z0 : Z) :
  forallb (inner_point_ok z0) (seq 0 (5 * 14)) = true.
Proof. vm_compute. reflexivity. Qed.

Lemma main_first_15 (x0 y0 z0 : Z) :
  main 77 x0 y0 z0 = Some (mkState L_z 0 1 610, fib_below_255 ++ [0]).
Proof. vm_compute. reflexivity. Qed.

Lemma until_restart_mono (f : nat) :
  forall (f' : nat) (s : state) (r : state * trace),
    (f <= f')%nat -> until_restart f s = Some r -> until_restart f' s = Some r.
Proof.
  induction f as [|f IH]; intros f' s r Hle H; [discriminate|].
  destruct f' as [|f']; [lia|].
  simpl in *. destruct (step s) as [[s1 t1]|]; [|discriminate].
  destruct (label_eqb (pc s1) L_while); [exact H|].
  destruct (until_restart f s1) as [[s2 t2]|] eqn:E; [|discriminate].
  now rewrite (IH f' s1 (s2, t2)) by (auto; lia).
Qed.

Lemma cycle_unique (fuel : nat) (s : state) (r : state * trace) :
  pc s = L_while -> until_restart fuel s = Some r ->
  r = (mkState L_while 377 610 610, fib_below_255).
Proof.
  destruct s as [p a b c]; simpl; intros -> H.
  pose proof (cycle_from_while a b c) as C.
  destruct (Nat.le_ge_cases fuel 73) as [L|L].
  - apply (until_restart_mono _ _ _ _ L) in H. congruence.
  - apply (until_restart_mono _ _ _ _ L) in C. congruence.
Qed.

(** The run of [main] is the cycle repeated: [73 * k] statements print the
    Fibonacci numbers below 255 [k] times over. *)

Lemma main_cycles (k : nat) (x0 y0 z0 : Z) :
  exists s,
    main (73 * k) x0 y0 z0 = Some (s, List.concat (repeat fib_below_255 k))
    /\ pc s = L_while.
Proof.
  induction k as [|k (s & H & P)].
  - now exists (entry x0 y0 z0).
  - replace (73 * S k)%nat with (73 * k + 73)%nat by lia.
    unfold main in *. rewrite run_add, H.
    destruct s as [p a b c]; simpl in P; subst p.
    exists (mkState L_while 377 610 610). split; [|reflexivity].
    replace (run 73 (mkState L_while a b c))
      with (Some (mkState L_while 377 610 610, fib_below_255))
      by (vm_compute; reflexivity).
    f_equal. f_equal.
    replace (S k) with (k + 1)%nat by lia.
    rewrite repeat_app, concat_app. reflexivity.
Qed.

(** ** Traces only grow *)

Lemma main_prefix_15 (n : nat) (x0 y0 z0 : Z) (s : state) (t : trace) :
  main n x0 y0 z0 = Some (s, t) -> (15 <= List.length t)%nat ->
  exists rest, t = (fib_below_255 ++ [0]) ++ rest.
Proof.
  unfold main. intros H L.
  pose proof (main_first_15 x0 y0 z0) as M. unfold main in M.
  destruct (Nat.le_ge_cases n 77) as [C|C].
  - replace 77%nat with (n + (77 - n))%nat in M by lia.
    apply run_split in M. destruct M as (s1 & t1 & t2 & M1 & _ & E).
    rewrite H in M1. injection M1 as <- <-.
    assert (L2 : List.length (t ++ t2) = 15%nat) by now rewrite <- E.
    rewrite length_app in L2.
    destruct t2 as [|v t2]; [|simpl in L2; lia].
    exists []. rewrite app_nil_r in *. now symmetry.
  - replace n with (77 + (n - 77))%nat in H by lia.
    apply run_split in H. destruct H as (s1 & t1 & t2 & H1 & _ & E).
    rewrite M in H1. injection H1 as <- <-.
    now exists t2.
Qed.

(** ** Text *)

Lemma string_app_assoc (a b c : string) :
  ((a ++ b) ++ c = a ++ (b ++ c))%string.
Proof. induction a as [|ch a IH]; simpl; [reflexivity|now rewrite IH]. Qed.

Lemma string_app_nil_r (a : string) : (a ++ EmptyString = a)%string.
Proof. induction a as [|ch a IH]; simpl; [reflexivity|now rewrite IH]. Qed.

Lemma stdout_text_app (t1 t2 : trace) :
  stdout_text (t1 ++ t2) = (stdout_text t1 ++ stdout_text t2)%string.
Proof.
  induction t1 as [|v t1 IH]; simpl; [reflexivity|].
  now rewrite IH, string_app_assoc.
Qed.

Lemma no_overflow_add (s : state) :
  overflows s = false -> pc s = L_z -> add_int (x s) (y s) = x s + y s.
Proof.
  unfold overflows. intros H P. rewrite P in H.
  apply negb_false_iff, in_intb_spec in H.
  exact (int_wrap_id _ H).
Qed.

(** ** How control reaches each statement of the inner loop

    The only statement before the test of line 16 is the assignment of line
    15, and so on back to the [printf] of line 12. *)

Ltac into_label s1 H P :=
  destruct s1 as [[] a b c]; unfold step, goto in H;
  cbn -[add_int Z.ltb] in H; try discriminate H;
  try (destruct (a <? 255)); injection H as <- <-;
  cbn in P; try discriminate P.

Lemma step_into_cond (s1 s : state) (t1 : trace) :
  step s1 = Some (s, t1) -> pc s = L_cond ->
  pc s1 = L_y /\ t1 = [] /\ x s = x s1 /\ y s = z s1.
Proof. intros H P. into_label s1 H P; now repeat split. Qed.

Lemma step_into_y (s1 s : state) (t1 : trace) :
  step s1 = Some (s, t1) -> pc s = L_y ->
  pc s1 = L_x /\ t1 = [] /\ x s = y s1 /\ z s = z s1.
Proof. intros H P. into_label s1 H P; now repeat split. Qed.

Lemma step_into_x (s1 s : state) (t1 : trace) :
  step s1 = Some (s, t1) -> pc s = L_x ->
  pc s1 = L_z /\ t1 = [] /\ y s = y s1 /\ z s = add_int (x s1) (y s1).
Proof. intros H P. into_label s1 H P; now repeat split. Qed.

Lemma step_into_z (s1 s : state) (t1 : trace) :
  step s1 = Some (s, t1) -> pc s = L_z ->
  pc s1 = L_print /\ t1 = [x s1] /\ x s = x s1 /\ y s = y s1.
Proof. intros H P. into_label s1 H P; now repeat split. Qed.

Lemma run_not_at_start (n : nat) (e s : state) (t : trace) :
  run n e = Some (s, t) -> pc s <> pc e -> exists k, n = S k.
Proof.
  destruct n as [|k]; [|now exists k].
  intros H D. injection H as <- _. now elim D.
Qed.

Lemma test_follows_body (n : nat) (e s : state) (t : trace) :
  pc e = L_while -> run n e = Some (s, t) -> pc s = L_cond ->
  exists m s0 t0,
    n = (m + 4)%nat /\ run m e = Some (s0, t0) /\ pc s0 = L_print /\
    t = t0 ++ [x s0] /\ x s = y s0 /\ y s = add_int (x s0) (y s0).
Proof.
  intros E H P.
  destruct (run_not_at_start _ _ _ _ H) as [n3 ->]; [congruence|].
  apply run_last in H. destruct H as (s3 & t3 & u3 & H3 & S3 & ->).
  destruct (step_into_cond _ _ _ S3 P) as (P3 & -> & X3 & Y3).
  destruct (run_not_at_start _ _ _ _ H3) as [n2 ->]; [congruence|].
  apply run_last in H3. destruct H3 as (s2 & t2 & u2 & H2 & S2 & ->).
  destruct (step_into_y _ _ _ S2 P3) as (P2 & -> & X2 & Z2).
  destruct (run_not_at_start _ _ _ _ H2) as [n1 ->]; [congruence|].
  apply run_last in H2. destruct H2 as (s1 & t1 & u1 & H1 & S1 & ->).
  destruct (step_into_x _ _ _ S1 P2) as (P1 & -> & Y1 & Z1).
  destruct (run_not_at_start _ _ _ _ H1) as [m ->]; [congruence|].
  apply run_last in H1. destruct H1 as (s0 & t0 & u0 & H0 & S0 & ->).
  destruct (step_into_z _ _ _ S0 P1) as (P0 & -> & X0 & Y0).
  exists m, s0, t0. split; [lia|]. split; [exact H0|]. split; [exact P0|].
  rewrite !app_nil_r. split; [reflexivity|]. split; congruence.
Qed.

(** * The claims *)

(** ** One cycle of the outer loop *)

(** C1, as stated, fails on the first cycle of a run: the cycle that starts
    when [main] is entered does not print the fifteen values
    0, 1, 1, 2, ..., 233, 377. *)
Lemma cycle_differs_from_spec_list :
  ~ (forall s' t,
        until_restart 73 (entry 0 0 0) = Some (s', t) -> t = spec_cycle).
Proof.
  intros H. specialize (H _ _ (cycle_from_while 0 0 0)). discriminate H.
Qed.

(** C1 (amended): for every cycle of the outer loop, that is from every state
    at the head of the outer loop, the run reaches the head of the outer loop
    again, and the values printed on the way are exactly
    0, 1, 1, 2, 3, 5, 8, 13, 21, 34, 55, 89, 144, 233, however much fuel the
    cycle is given. *)
Theorem cycle_emits_fib_below_255 (s : state) :
  pc s = L_while ->
  (exists s', until_restart 73 s = Some (s', fib_below_255)) /\
  (forall fuel s' t, until_restart fuel s = Some (s', t) -> t = fib_below_255).
Proof.
  intros P. split.
  - destruct s as [p a b c]; simpl in P; subst p.
    eexists. apply cycle_from_while.
  - intros fuel s' t H. apply (cycle_unique _ _ _ P) in H. congruence.
Qed.

Lemma cycle_emits_fib_below_255_witness :
  (exists s', until_restart 73 (entry 0 0 0) = Some (s', fib_below_255)) /\
  (forall fuel s' t,
      until_restart fuel (entry 0 0 0) = Some (s', t) -> t = fib_below_255).
Proof. apply (cycle_emits_fib_below_255 (entry 0 0 0)). reflexivity. Defined.

(** C6: any two cycles of the outer loop, whatever the locals hold when each
    starts, run to completion and print the same values and end in the same
    state. *)
Theorem cycles_identical (s1 s2 : state) :
  pc s1 = L_while -> pc s2 = L_while ->
  exists r,
    until_restart 73 s1 = Some r /\ until_restart 73 s2 = Some r /\
    (forall f1 f2 r1 r2,
        until_restart f1 s1 = Some r1 -> until_restart f2 s2 = Some r2 ->
        r1 = r /\ r2 = r).
Proof.
  intros P1 P2. exists (mkState L_while 377 610 610, fib_below_255).
  split; [|split].
  - destruct s1 as [p a b c]; simpl in P1; subst p. apply cycle_from_while.
  - destruct s2 as [p a b c]; simpl in P2; subst p. apply cycle_from_while.
  - intros f1 f2 r1 r2 H1 H2.
    split; [exact (cycle_unique _ _ _ P1 H1)|exact (cycle_unique _ _ _ P2 H2)].
Qed.

Lemma cycles_identical_witness :
  exists r,
    until_restart 73 (entry 0 0 0) = Some r /\
    until_restart 73 (mkState L_while 377 610 610) = Some r /\
    (forall f1 f2 r1 r2,
        until_restart f1 (entry 0 0 0) = Some r1 ->
        until_restart f2 (mkState L_while 377 610 610) = Some r2 ->
        r1 = r /\ r2 = r).
Proof.
  apply (cycles_identical (entry 0 0 0) (mkState L_while 377 610 610));
    reflexivity.
Defined.

(** ** The first lines of a run *)

(** C2, as stated, fails on the run of 100 statements: of its first sixteen
    lines the first fifteen are not 0, 1, 1, ..., 233, 377 (line 15 is 0 and
    line 16 is 1). *)
Lemma capped_run_contradicts_spec_lines :
  ~ (forall s t,
        main 100 0 0 0 = Some (s, t) -> (16 <= List.length t)%nat ->
        firstn 15 (firstn 16 t) = spec_cycle /\
        nth_error (firstn 16 t) 15 = Some 0).
Proof.
  intros H.
  destruct (main 100 0 0 0) as [[s t]|] eqn:E; vm_compute in E;
    [|discriminate E].
  injection E as <- <-.
  destruct (H _ _ eq_refl) as [H1 _]; [simpl; lia|].
  discriminate H1.
Qed.

(** C2 (amended): in any run of the program cut to its first [N] output
    lines, [N >= 15], lines 1 to 14 are 0, 1, 1, 2, 3, 5, 8, 13, 21, 34, 55,
    89, 144, 233 and line 15 is 0 again: the inner loop restarts right after
    printing 233. *)
Theorem capped_run_first_lines
    (n : nat) (x0 y0 z0 : Z) (s : state) (t : trace) (N : nat) :
  main n x0 y0 z0 = Some (s, t) -> (15 <= N <= List.length t)%nat ->
  firstn 14 (firstn N t) = fib_below_255 /\
  nth_error (firstn N t) 14 = Some 0 /\
  firstn 15 (firstn N (output_lines t))
  = ["0"; "1"; "1"; "2"; "3"; "5"; "8"; "13"; "21"; "34"; "55"; "89"; "144";
     "233"; "0"]%string.
Proof.
  intros H [L1 L2].
  destruct (main_prefix_15 _ _ _ _ _ _ H) as [rest E]; [lia|].
  assert (F : firstn N t = (fib_below_255 ++ [0]) ++ firstn (N - 15) rest).
  { rewrite E, firstn_app. f_equal. apply firstn_all2. simpl. lia. }
  unfold output_lines. rewrite firstn_map, F.
  repeat split; reflexivity.
Qed.

Lemma capped_run_first_lines_witness :
  firstn 14 (firstn 16 [0; 1; 1; 2; 3; 5; 8; 13; 21; 34; 55; 89; 144; 233; 0;
                        1; 1; 2; 3]) = fib_below_255 /\
  nth_error (firstn 16 [0; 1; 1; 2; 3; 5; 8; 13; 21; 34; 55; 89; 144; 233; 0;
                        1; 1; 2; 3]) 14 = Some 0 /\
  firstn 15 (firstn 16 (output_lines
                          [0; 1; 1; 2; 3; 5; 8; 13; 21; 34; 55; 89; 144; 233;
                           0; 1; 1; 2; 3]))
  = ["0"; "1"; "1"; "2"; "3"; "5"; "8"; "13"; "21"; "34"; "55"; "89"; "144";
     "233"; "0"]%string.
Proof.
  apply (capped_run_first_lines 100 0 0 0 (mkState L_cond 5 8 8)).
  - vm_compute. reflexivity.
  - simpl. lia.
Defined.

(** ** One iteration of the inner loop *)

(** C4: an outer iteration begins with [x = 0; y = 1;], and from line 12 an
    inner iteration prints [x] as one decimal line, that is its decimal
    digits followed by the newline character (code 10), sets [z] to the sum
    [x + y], [x] to [y] and [y] to [z], in this order, and goes round again
    exactly when the new [x] is below 255. *)
Theorem iteration_order
    (n : nat) (x0 y0 z0 : Z) (s : state) (t : trace) :
  main n x0 y0 z0 = Some (s, t) -> pc s = L_print ->
  (forall a b c,
      run 1 (mkState L_while a b c) = Some (mkState L_x0 a b c, []) /\
      run 2 (mkState L_while a b c) = Some (mkState L_y1 0 b c, []) /\
      run 3 (mkState L_while a b c) = Some (mkState L_print 0 1 c, [])) /\
  run 1 s = Some (mkState L_z (x s) (y s) (z s), [x s]) /\
  stdout_text (t ++ [x s])
  = (stdout_text t ++ NilZero.string_of_int (Z.to_int (x s))
       ++ String "010"%char EmptyString)%string /\
  run 2 s = Some (mkState L_x (x s) (y s) (x s + y s), [x s]) /\
  run 3 s = Some (mkState L_y (y s) (y s) (x s + y s), [x s]) /\
  run 4 s = Some (mkState L_cond (y s) (x s + y s) (x s + y s), [x s]) /\
  run 5 s = Some (mkState (if y s <? 255 then L_print else L_while)
                          (y s) (x s + y s) (x s + y s), [x s]).
Proof.
  intros H P.
  destruct (run_loop_inv _ _ _ _ (entry_loop_inv x0 y0 z0) H) as [I _].
  destruct s as [p a b c]; simpl in P; subst p.
  unfold loop_inv in I; cbn [pc x y z] in *.
  assert (E : add_int a b = a + b)
    by (apply int_wrap_id, small_in_int; lia).
  split; [intros; repeat split; reflexivity|].
  split; [reflexivity|].
  split.
  { rewrite stdout_text_app. cbn [stdout_text]. unfold printf_d_nl.
    now rewrite string_app_nil_r. }
  unfold run, step, goto; cbn [pc x y z app]; rewrite E.
  repeat split; try reflexivity.
  destruct (b <? 255); reflexivity.
Qed.

Lemma iteration_order_witness :
  (forall a b c,
      run 1 (mkState L_while a b c) = Some (mkState L_x0 a b c, []) /\
      run 2 (mkState L_while a b c) = Some (mkState L_y1 0 b c, []) /\
      run 3 (mkState L_while a b c) = Some (mkState L_print 0 1 c, [])) /\
  run 1 (mkState L_print 13 21 21) = Some (mkState L_z 13 21 21, [13]) /\
  stdout_text ([0; 1; 1; 2; 3; 5; 8] ++ [13])
  = (stdout_text [0; 1; 1; 2; 3; 5; 8] ++ "13"
       ++ String "010"%char EmptyString)%string /\
  run 2 (mkState L_print 13 21 21) = Some (mkState L_x 13 21 34, [13]) /\
  run 3 (mkState L_print 13 21 21) = Some (mkState L_y 21 21 34, [13]) /\
  run 4 (mkState L_print 13 21 21) = Some (mkState L_cond 21 34 34, [13]) /\
  run 5 (mkState L_print 13 21 21) = Some (mkState L_print 21 34 34, [13]).
Proof.
  apply (iteration_order 38 0 0 0 (mkState L_print 13 21 21)
           [0; 1; 1; 2; 3; 5; 8]); reflexivity.
Defined.

(** C3, as stated, fails on the first cycle: the value that makes
    [x >= 255] hold when the cycle ends, 377, is not among the values the
    cycle printed. *)
Lemma exit_value_not_emitted :
  ~ (forall s t,
        until_restart 73 (entry 0 0 0) = Some (s, t) ->
        255 <= x s -> In (x s) t).
Proof.
  intros H. specialize (H _ _ (cycle_from_while 0 0 0)).
  cbn [x] in H. assert (L : 255 <= 377) by lia.
  apply H in L. unfold fib_below_255 in L. simpl in L.
  repeat (destruct L as [L|L]; [discriminate L|]). exact L.
Qed.

(** C3 (amended): the inner loop is execute-then-check.  It is entered at
    the [printf] of line 12 straight from the reset, with no test before the
    first value is printed; whenever the test of line 16 is reached, the four
    statements before it were the print and the three assignments of the
    same iteration; and in every inner iteration the value is printed and
    the locals are advanced before [x < 255] is tested.  The test reads the
    advanced [x], which has not been printed, so when it fails the cycle
    restarts without the value that makes [x >= 255] hold having been
    printed. *)
Theorem execute_then_check
    (n : nat) (x0 y0 z0 : Z) (s : state) (t : trace) :
  main n x0 y0 z0 = Some (s, t) -> pc s = L_print ->
  (forall a b c,
      run 3 (mkState L_while a b c) = Some (mkState L_print 0 1 c, [])) /\
  (forall m s' t',
      main m x0 y0 z0 = Some (s', t') -> pc s' = L_cond ->
      exists m0 s0 t0,
        m = (m0 + 4)%nat /\ main m0 x0 y0 z0 = Some (s0, t0) /\
        pc s0 = L_print /\ t' = t0 ++ [x s0] /\ x s' = y s0) /\
  exists s4,
    run 4 s = Some (s4, [x s]) /\ pc s4 = L_cond /\
    x s4 = y s /\ y s4 = x s + y s /\
    ((x s4 < 255 /\ step s4 = Some (goto L_print s4, [])) \/
     (255 <= x s4 /\ step s4 = Some (goto L_while s4, []) /\
      ~ In (x s4) (t ++ [x s]))).
Proof.
  intros H P.
  split; [intros a b c; reflexivity|].
  split.
  { intros m s' t' H' P'.
    destruct (test_follows_body m (entry x0 y0 z0) s' t' eq_refl H' P')
      as (m0 & s0 & t0 & A & B & C & D & E & _).
    now exists m0, s0, t0. }
  assert (H4 : exists s4, run 4 s = Some (s4, [x s])).
  { destruct s as [p a b c]; simpl in P; subst p. eexists. reflexivity. }
  destruct H4 as [s4 H4]. exists s4.
  assert (R : run (n + 4) (entry x0 y0 z0) = Some (s4, t ++ [x s])).
  { rewrite run_add. unfold main in H. now rewrite H, H4. }
  destruct (run_loop_inv _ _ _ _ (entry_loop_inv x0 y0 z0) R) as [I4 F].
  destruct (run_loop_inv _ _ _ _ (entry_loop_inv x0 y0 z0) H) as [I _].
  destruct s as [p a b c]; simpl in P; subst p.
  unfold loop_inv in I; cbn [pc x y z] in *.
  assert (E : add_int a b = a + b)
    by (apply int_wrap_id, small_in_int; lia).
  unfold run, step, goto in H4; cbn [pc x y z app] in H4.
  rewrite E in H4. injection H4 as <-.
  cbn [pc x y z].
  split; [unfold run, step, goto; cbn [pc x y z app]; now rewrite E|].
  do 3 (split; [reflexivity|]).
  unfold step, goto; cbn [pc x y z].
  destruct (Z.ltb_spec b 255) as [L|L]; [left|right];
    (split; [exact L|]); [reflexivity|split; [reflexivity|]].
  intros IN. rewrite Forall_forall in F. apply F in IN. lia.
Qed.

Lemma execute_then_check_witness :
  (forall a b c,
      run 3 (mkState L_while a b c) = Some (mkState L_print 0 1 c, [])) /\
  (forall m s' t',
      main m 0 0 0 = Some (s', t') -> pc s' = L_cond ->
      exists m0 s0 t0,
        m = (m0 + 4)%nat /\ main m0 0 0 0 = Some (s0, t0) /\
        pc s0 = L_print /\ t' = t0 ++ [x s0] /\ x s' = y s0) /\
  exists s4,
    run 4 (mkState L_print 233 377 377) = Some (s4, [233]) /\ pc s4 = L_cond /\
    x s4 = 377 /\ y s4 = 233 + 377 /\
    ((x s4 < 255 /\ step s4 = Some (goto L_print s4, [])) \/
     (255 <= x s4 /\ step s4 = Some (goto L_while s4, []) /\
      ~ In (x s4) ([0; 1; 1; 2; 3; 5; 8; 13; 21; 34; 55; 89; 144] ++ [233]))).
Proof.
  apply (execute_then_check 68 0 0 0 (mkState L_print 233 377 377)
           [0; 1; 1; 2; 3; 5; 8; 13; 21; 34; 55; 89; 144]); reflexivity.
Defined.

(** ** What is printed *)

(** C5: every value the program prints is a non-negative integer. *)
Theorem emitted_nonnegative
    (n : nat) (x0 y0 z0 : Z) (s : state) (t : trace) :
  main n x0 y0 z0 = Some (s, t) -> Forall (fun v => 0 <= v) t.
Proof.
  intros H.
  destruct (run_loop_inv _ _ _ _ (entry_loop_inv x0 y0 z0) H) as [_ F].
  eapply Forall_impl; [|exact F]. simpl. intros v Hv. lia.
Qed.

Lemma emitted_nonnegative_witness :
  Forall (fun v => 0 <= v)
         [0; 1; 1; 2; 3; 5; 8; 13; 21; 34; 55; 89; 144; 233; 0].
Proof.
  apply (emitted_nonnegative 80 (-7) (-8) (-9) (mkState L_cond 1 1 1)).
  reflexivity.
Defined.

(** C10: every value the program prints is below 255; [x] is printed only
    while it is below the bound of line 16. *)
Theorem emitted_below_255
    (n : nat) (x0 y0 z0 : Z) (s : state) (t : trace) :
  main n x0 y0 z0 = Some (s, t) -> Forall (fun v => v < 255) t.
Proof.
  intros H.
  destruct (run_loop_inv _ _ _ _ (entry_loop_inv x0 y0 z0) H) as [_ F].
  eapply Forall_impl; [|exact F]. simpl. intros v Hv. lia.
Qed.

Lemma emitted_below_255_witness :
  Forall (fun v => v < 255)
         [0; 1; 1; 2; 3; 5; 8; 13; 21; 34; 55; 89; 144; 233; 0; 1; 1; 2; 3].
Proof.
  apply (emitted_below_255 100 1000 2000 3000 (mkState L_cond 5 8 8)).
  reflexivity.
Defined.

(** ** Arithmetic stays in range *)

(** C7: when [main] is entered with its locals holding values of type [int],
    then at every point of the run [x], [y] and [z] are within the 32-bit
    signed range and the sum of line 13 is the sum of the integers: it never
    leaves the range, so the wrap-around never takes effect. *)
Theorem arithmetic_in_range
    (n : nat) (x0 y0 z0 : Z) (s : state) (t : trace) :
  in_int x0 -> in_int y0 -> in_int z0 ->
  main n x0 y0 z0 = Some (s, t) ->
  in_int (x s) /\ in_int (y s) /\ in_int (z s) /\
  overflows s = false /\
  (pc s = L_z -> x s < 255 /\ add_int (x s) (y s) = x s + y s).
Proof.
  intros Rx Ry Rz H.
  destruct (run_loop_inv _ _ _ _ (entry_loop_inv x0 y0 z0) H) as [I _].
  assert (R : ranged (entry x0 y0 z0)) by exact (conj Rx (conj Ry Rz)).
  destruct (run_ranged _ _ _ _ (entry_loop_inv x0 y0 z0) R H) as (A & B & C).
  pose proof (loop_inv_no_overflow _ I) as O.
  do 4 (split; [assumption|]).
  intros P. split; [|now apply no_overflow_add].
  unfold loop_inv in I. rewrite P in I. lia.
Qed.

Lemma arithmetic_in_range_witness :
  in_int 233 /\ in_int 377 /\ in_int 377 /\
  overflows (mkState L_z 233 377 377) = false /\
  (L_z = L_z -> 233 < 255 /\ add_int 233 377 = 233 + 377).
Proof.
  apply (arithmetic_in_range 69 INT_MAX INT_MIN (-1) (mkState L_z 233 377 377)
           [0; 1; 1; 2; 3; 5; 8; 13; 21; 34; 55; 89; 144; 233]).
  - unfold in_int. vm_compute. split; discriminate.
  - unfold in_int. vm_compute. split; discriminate.
  - unfold in_int. vm_compute. split; discriminate.
  - reflexivity.
Defined.

(** ** Termination *)

(** C8: the program never terminates: however many statements have been
    executed, the run is defined, control is not past the outer loop, and
    there is a next statement to execute. *)
Theorem never_terminates (n : nat) (x0 y0 z0 : Z) :
  exists s t,
    main n x0 y0 z0 = Some (s, t) /\ pc s <> L_end /\ step s <> None.
Proof.
  destruct (run_progress n (entry x0 y0 z0)) as (s & t & H & P);
    [discriminate|].
  exists s, t. repeat split; auto.
  destruct (step_progress s P) as (s1 & t1 & E & _).
  rewrite E. discriminate.
Qed.

(** C9: the inner loop entered with [x = 0] and [y = 1] is left after 14
    iterations of its five statements, with [x = 377]; at each of the 70
    points before that, control is inside the loop and the sum of line 13 is
    within range. *)
Theorem inner_loop_terminates (z0 : Z) (k : nat) :
  (k < 5 * 14)%nat ->
  run (5 * 14) (mkState L_print 0 1 z0)
  = Some (mkState L_while 377 610 610, fib_below_255) /\
  exists sk tk,
    run k (mkState L_print 0 1 z0) = Some (sk, tk) /\
    in_inner (pc sk) = true /\ overflows sk = false.
Proof.
  intros Hk. split; [apply inner_from_0_1|].
  pose proof (inner_points_ok z0) as F.
  rewrite forallb_forall in F. specialize (F k).
  unfold inner_point_ok in F.
  destruct (run k (mkState L_print 0 1 z0)) as [[sk tk]|].
  - exists sk, tk. split; [reflexivity|].
    assert (K : In k (seq 0 (5 * 14))) by (apply in_seq; lia).
    apply F, andb_true_iff in K. destruct K as [K1 K2].
    apply negb_true_iff in K2. now split.
  - discriminate F. apply in_seq. lia.
Qed.

Lemma inner_loop_terminates_witness :
  run (5 * 14) (mkState L_print 0 1 42)
  = Some (mkState L_while 377 610 610, fib_below_255) /\
  exists sk tk,
    run 69 (mkState L_print 0 1 42) = Some (sk, tk) /\
    in_inner (pc sk) = true /\ overflows sk = false.
Proof. apply (inner_loop_terminates 42 69). simpl. lia. Defined.

(** * Further properties of [main] *)

(** ** The Fibonacci sequence *)

Lemma fib_SS (k : nat) : fib (S (S k)) = fib k + fib (S k).
Proof. reflexivity. Qed.

Lemma fib_nonneg (k : nat) : 0 <= fib k /\ 0 <= fib (S k).
Proof.
  induction k as [|k [A B]]; [simpl; lia|].
  split; [exact B|rewrite fib_SS; lia].
Qed.

Lemma fib_mono (k : nat) : fib k <= fib (S k).
Proof.
  destruct k as [|k]; [simpl; lia|].
  rewrite fib_SS. destruct (fib_nonneg k) as [A _]. lia.
Qed.

Lemma fib_mono_le (i j : nat) : (i <= j)%nat -> fib i <= fib j.
Proof.
  induction 1 as [|m _ IH]; [lia|]. pose proof (fib_mono m). lia.
Qed.

Lemma fib_small_index (i : nat) : fib i < 255 -> (i < 14)%nat.
Proof.
  intros H. destruct (Nat.lt_ge_cases i 14) as [L|L]; [exact L|].
  apply fib_mono_le in L. change (fib 14) with 377 in L. lia.
Qed.

Lemma fib_below_255_fib : fib_below_255 = map fib (seq 0 14).
Proof. reflexivity. Qed.

Lemma nth_fib_below_255 (j : nat) :
  (j < 14)%nat -> nth_error fib_below_255 j = Some (fib j).
Proof.
  intros H. do 14 (destruct j as [|j]; [reflexivity|]). lia.
Qed.

(** ** A list repeated *)

Lemma length_concat_repeat (l : list Z) (k : nat) :
  List.length (List.concat (repeat l k)) = (k * List.length l)%nat.
Proof.
  induction k as [|k IH]; [reflexivity|].
  simpl. rewrite length_app, IH. reflexivity.
Qed.

Lemma nth_concat_repeat (l : list Z) (k : nat) :
  forall i : nat,
    (i < k * List.length l)%nat ->
    nth_error (List.concat (repeat l k)) i
    = nth_error l (i mod List.length l).
Proof.
  induction k as [|k IH]; intros i H; [simpl in H; lia|].
  simpl in *. destruct (Nat.lt_ge_cases i (List.length l)) as [L|L].
  - rewrite nth_error_app1 by exact L. now rewrite Nat.mod_small.
  - rewrite nth_error_app2 by exact L. rewrite IH by lia.
    f_equal.
    replace i with ((i - List.length l) + 1 * List.length l)%nat at 2 by lia.
    now rewrite Nat.Div0.mod_add.
Qed.

(** ** Every trace is the beginning of the repeated cycle *)

Lemma main_trace_prefix (n : nat) (x0 y0 z0 : Z) (s : state) (t : trace) :
  main n x0 y0 z0 = Some (s, t) ->
  exists rest, List.concat (repeat fib_below_255 n) = t ++ rest.
Proof.
  intros H. destruct (main_cycles n x0 y0 z0) as (s' & M & _).
  unfold main in *. replace (73 * n)%nat with (n + 72 * n)%nat in M by lia.
  apply run_split in M. destruct M as (s1 & t1 & t2 & M1 & _ & E).
  rewrite H in M1. injection M1 as <- <-. now exists t2.
Qed.

(** ** The states of a run repeat *)

Lemma first_five (x0 y0 z0 : Z) :
  run 5 (entry x0 y0 z0) = Some (after_reset, [0]).
Proof. vm_compute. reflexivity. Qed.

Lemma after_reset_period :
  run 73 after_reset
  = Some (after_reset, [1; 1; 2; 3; 5; 8; 13; 21; 34; 55; 89; 144; 233; 0]).
Proof. vm_compute. reflexivity. Qed.

Lemma cycle_state_period (m : nat) :
  forall (s : state) (t : trace),
    run m after_reset = Some (s, t) ->
    exists m' t', (m' < 73)%nat /\ run m' after_reset = Some (s, t').
Proof.
  induction m as [m IH] using lt_wf_ind. intros s t H.
  destruct (Nat.lt_ge_cases m 73) as [L|L]; [now exists m, t|].
  replace m with (73 + (m - 73))%nat in H by lia.
  apply run_split in H. destruct H as (s1 & t1 & t2 & A & B & _).
  rewrite after_reset_period in A. injection A as <- <-.
  apply (IH (m - 73)%nat) in B; [exact B|lia].
Qed.

Lemma from_fifth_statement
    (n : nat) (x0 y0 z0 : Z) (s : state) (t : trace) :
  (5 <= n)%nat -> main n x0 y0 z0 = Some (s, t) ->
  exists t', run (n - 5) after_reset = Some (s, t') /\ t = 0 :: t'.
Proof.
  intros L H. unfold main in H.
  replace n with (5 + (n - 5))%nat in H at 1 by lia.
  apply run_split in H. destruct H as (s1 & t1 & t2 & A & B & E).
  rewrite first_five in A. injection A as <- <-.
  now exists t2.
Qed.

Lemma holds_from_fifth (P : state -> bool) :
  holds_on_cycle P = true ->
  forall (n : nat) (x0 y0 z0 : Z) (s : state) (t : trace),
    (5 <= n)%nat -> main n x0 y0 z0 = Some (s, t) -> P s = true.
Proof.
  intros C n x0 y0 z0 s t L H.
  destruct (from_fifth_statement _ _ _ _ _ _ L H) as (t' & R & _).
  destruct (cycle_state_period _ _ _ R) as (m & t2 & Lm & Rm).
  unfold holds_on_cycle in C. rewrite forallb_forall in C.
  specialize (C m). rewrite Rm in C. apply C, in_seq. lia.
Qed.

Lemma within_610_cycle : holds_on_cycle within_610 = true.
Proof. vm_compute. reflexivity. Qed.

Lemma fib_pair_cycle : holds_on_cycle fib_pair_at_print = true.
Proof. vm_compute. reflexivity. Qed.

(** ** Characters *)

Lemma list_ascii_app (a b : string) :
  list_ascii_of_string (a ++ b)
  = list_ascii_of_string a ++ list_ascii_of_string b.
Proof. induction a as [|c a IH]; simpl; [reflexivity|now rewrite IH]. Qed.

Lemma printf_chars_below_255 :
  forallb (fun k => forallb digit_or_nl
                      (list_ascii_of_string (printf_d_nl (Z.of_nat k))))
          (seq 0 255) = true.
Proof. vm_compute. reflexivity. Qed.

Lemma printf_chars (v : Z) :
  0 <= v < 255 ->
  Forall (fun c => digit_or_nl c = true)
         (list_ascii_of_string (printf_d_nl v)).
Proof.
  intros H. pose proof printf_chars_below_255 as C.
  rewrite forallb_forall in C. specialize (C (Z.to_nat v)).
  rewrite Z2Nat.id in C by lia.
  apply Forall_forall. apply forallb_forall. apply C, in_seq. lia.
Qed.

(** ** The output as a whole *)

(** X1: the run of [main] is the cycle repeated: after [73 * k] statements
    control is at the head of the outer loop and the output so far is the
    fourteen values 0, 1, 1, ..., 233 written [k] times over, [14 * k]
    values in all. *)
Theorem output_is_cycle_repeated (k : nat) (x0 y0 z0 : Z) :
  exists s t,
    main (73 * k) x0 y0 z0 = Some (s, t) /\ pc s = L_while /\
    t = List.concat (repeat fib_below_255 k) /\
    List.length t = (14 * k)%nat.
Proof.
  destruct (main_cycles k x0 y0 z0) as (s & H & P).
  exists s, (List.concat (repeat fib_below_255 k)).
  repeat split; auto.
  rewrite length_concat_repeat. simpl List.length. lia.
Qed.

(** X2: line [i] of the output (counting from 0) is the Fibonacci number of
    index [i mod 14], in every run long enough to have printed it. *)
Theorem nth_line_is_fib
    (n : nat) (x0 y0 z0 : Z) (s : state) (t : trace) (i : nat) :
  main n x0 y0 z0 = Some (s, t) -> (i < List.length t)%nat ->
  nth_error t i = Some (fib (i mod 14)).
Proof.
  intros H L.
  destruct (main_trace_prefix _ _ _ _ _ _ H) as [rest E].
  assert (B : (i < n * List.length fib_below_255)%nat).
  { rewrite <- length_concat_repeat, E, length_app. lia. }
  rewrite <- (nth_error_app1 t rest) by exact L.
  rewrite <- E, nth_concat_repeat by exact B.
  apply nth_fib_below_255. apply Nat.mod_upper_bound. discriminate.
Qed.

Lemma nth_line_is_fib_witness :
  nth_error [0; 1; 1; 2; 3; 5; 8; 13; 21; 34; 55; 89; 144; 233; 0; 1; 1; 2; 3]
            17
  = Some (fib (17 mod 14)).
Proof.
  apply (nth_line_is_fib 100 0 0 0 (mkState L_cond 5 8 8)).
  - vm_compute. reflexivity.
  - simpl. lia.
Defined.

(** X3: the values the program prints are exactly the Fibonacci numbers
    below 255: each value printed in some run is one, and each of them is
    printed in some run. *)
Theorem printed_iff_fib_below_255 (x0 y0 z0 v : Z) :
  (exists n s t, main n x0 y0 z0 = Some (s, t) /\ In v t) <->
  (exists i, fib i = v /\ v < 255).
Proof.
  split.
  - intros (n & s & t & H & IN).
    destruct (main_trace_prefix _ _ _ _ _ _ H) as [rest E].
    assert (IC : In v (List.concat (repeat fib_below_255 n))).
    { rewrite E. apply in_or_app. now left. }
    apply in_concat in IC. destruct IC as (l & Hl & Hv).
    apply repeat_spec in Hl. subst l.
    rewrite fib_below_255_fib in Hv. apply in_map_iff in Hv.
    destruct Hv as (i & <- & Hi). apply in_seq in Hi.
    exists i. split; [reflexivity|].
    assert (M : fib i <= fib 13) by (apply fib_mono_le; lia).
    change (fib 13) with 233 in M. lia.
  - intros (i & <- & B). apply fib_small_index in B.
    destruct (main_cycles 1 x0 y0 z0) as (s & H & _).
    exists 73%nat, s, fib_below_255. split.
    + exact H.
    + rewrite fib_below_255_fib. apply in_map, in_seq. lia.
Qed.

(** X4: the program keeps printing: for every [N] there is a point of the
    run by which at least [N] lines have been printed. *)
Theorem output_unbounded (N : nat) (x0 y0 z0 : Z) :
  exists n s t, main n x0 y0 z0 = Some (s, t) /\ (N <= List.length t)%nat.
Proof.
  destruct (main_cycles N x0 y0 z0) as (s & H & _).
  exists (73 * N)%nat, s, (List.concat (repeat fib_below_255 N)).
  split; [exact H|].
  rewrite length_concat_repeat. simpl List.length. lia.
Qed.

(** X6: the text written to standard output consists of decimal digits and
    newlines only; no minus sign or other character is ever written. *)
Theorem stdout_digits_and_newlines
    (n : nat) (x0 y0 z0 : Z) (s : state) (t : trace) :
  main n x0 y0 z0 = Some (s, t) ->
  Forall (fun c => digit_or_nl c = true)
         (list_ascii_of_string (stdout_text t)).
Proof.
  intros H.
  destruct (run_loop_inv _ _ _ _ (entry_loop_inv x0 y0 z0) H) as [_ F].
  clear H. induction F as [|v t Hv _ IH]; [constructor|].
  cbn [stdout_text]. rewrite list_ascii_app.
  apply Forall_app. split; [now apply printf_chars|exact IH].
Qed.

Lemma stdout_digits_and_newlines_witness :
  Forall (fun c => digit_or_nl c = true)
         (list_ascii_of_string
            (stdout_text
               [0; 1; 1; 2; 3; 5; 8; 13; 21; 34; 55; 89; 144; 233; 0])).
Proof.
  apply (stdout_digits_and_newlines 80 0 0 0 (mkState L_cond 1 1 1)).
  reflexivity.
Defined.

(** ** The locals *)

(** X7: nothing the program prints, and from the fifth statement on nothing
    of its state, depends on what the locals held when [main] was entered:
    none of them is read before it is assigned. *)
Theorem initial_contents_irrelevant
    (n : nat) (x0 y0 z0 x1 y1 z1 : Z) (s : state) (t : trace) :
  main n x0 y0 z0 = Some (s, t) ->
  exists s',
    main n x1 y1 z1 = Some (s', t) /\ pc s' = pc s /\
    ((5 <= n)%nat -> s' = s).
Proof.
  intros H. destruct (Nat.lt_ge_cases n 5) as [L|L].
  - do 5 (destruct n as [|n];
          [unfold main in *; simpl in H; injection H as <- <-;
           eexists; split; [reflexivity|split; [reflexivity|intros; lia]]|]).
    lia.
  - destruct (from_fifth_statement _ _ _ _ _ _ L H) as (t' & R & ->).
    exists s. split; [|split; auto].
    unfold main. replace n with (5 + (n - 5))%nat at 1 by lia.
    now rewrite run_add, first_five, R.
Qed.

Lemma initial_contents_irrelevant_witness :
  exists s',
    main 80 (-1) INT_MAX INT_MIN
    = Some (s', [0; 1; 1; 2; 3; 5; 8; 13; 21; 34; 55; 89; 144; 233; 0]) /\
    pc s' = L_cond /\ ((5 <= 80)%nat -> s' = mkState L_cond 1 1 1).
Proof.
  apply (initial_contents_irrelevant 80 7 8 9 (-1) INT_MAX INT_MIN
           (mkState L_cond 1 1 1)).
  reflexivity.
Defined.

(** X5: from the fifth statement on, [x], [y] and [z] hold values between 0
    and 610 at every point of the run. *)
Theorem locals_within_610
    (n : nat) (x0 y0 z0 : Z) (s : state) (t : trace) :
  (5 <= n)%nat -> main n x0 y0 z0 = Some (s, t) ->
  0 <= x s <= 610 /\ 0 <= y s <= 610 /\ 0 <= z s <= 610.
Proof.
  intros L H.
  pose proof (holds_from_fifth _ within_610_cycle _ _ _ _ _ _ L H) as W.
  unfold within_610 in W. cbn [forallb] in W.
  rewrite !andb_true_iff, !Z.leb_le in W. lia.
Qed.

Lemma locals_within_610_witness :
  0 <= 377 <= 610 /\ 0 <= 610 <= 610 /\ 0 <= 610 <= 610.
Proof.
  apply (locals_within_610 73 INT_MAX INT_MIN (-1)
           (mkState L_while 377 610 610) fib_below_255).
  - simpl. lia.
  - reflexivity.
Defined.

(** X8: whenever control is at line 12, [x] and [y] are two consecutive
    Fibonacci numbers, of indices [k] and [k + 1] for some [k < 14]. *)
Theorem consecutive_fib_at_print
    (n : nat) (x0 y0 z0 : Z) (s : state) (t : trace) :
  main n x0 y0 z0 = Some (s, t) -> pc s = L_print ->
  exists k, (k < 14)%nat /\ x s = fib k /\ y s = fib (S k).
Proof.
  intros H P. destruct (Nat.lt_ge_cases n 5) as [L|L].
  - do 5 (destruct n as [|n];
          [unfold main in *; simpl in H; injection H as <- <-;
           try discriminate P; exists 0%nat; repeat split; lia|]).
    lia.
  - pose proof (holds_from_fifth _ fib_pair_cycle _ _ _ _ _ _ L H) as W.
    unfold fib_pair_at_print in W. rewrite P in W. cbn [label_eqb] in W.
    unfold fib_pair in W. apply existsb_exists in W.
    destruct W as (k & Hk & E). apply in_seq in Hk.
    apply andb_true_iff in E. rewrite !Z.eqb_eq in E.
    exists k. split; [lia|exact E].
Qed.

Lemma consecutive_fib_at_print_witness :
  exists k, (k < 14)%nat /\ 233 = fib k /\ 377 = fib (S k).
Proof.
  apply (consecutive_fib_at_print 68 0 0 0 (mkState L_print 233 377 377)
           [0; 1; 1; 2; 3; 5; 8; 13; 21; 34; 55; 89; 144]); reflexivity.
Defined.

End Fib.
